(** * Google Forms → Asana relay: the task composer of [server.js]

    A shallow embedding of the decision-making part of the webhook server:
    [parseFormData] (normalisation of the posted record) and the
    construction of [taskData] inside [createAsanaTask], in the two
    variants found in the repository: the one that resolves a section *name*
    through the tracker's section listing, and the one that stores section
    ids directly; and of the spreadsheet side, [onFormSubmit] and
    [processExistingRows] of [trigger.gs].

    JavaScript strings are represented by their UTF-8 bytes ([string]);
    object literals used as tables are [gmap]s of their own properties, and a
    property read falls through to [Object.prototype] as the language
    prescribes. *)

From Stdlib Require Import Ascii String List Bool.
From stdpp Require Import gmap strings list fin_maps.

Local Open Scope string_scope.

(** ** JavaScript values that flow through the composer *)

Module Js.

(** The values a table lookup or a record field can produce here: strings,
    [undefined], [null], and what a read of an inherited property returns
    (a built-in function, or [Object.prototype] itself for [__proto__]). *)
Inductive jsval : Type :=
  | JUndefined
  | JNull
  | JStr (s : string)
  | JNative (name : string)
  | JObjectPrototype.

(** Structured data built by object and array literals. Fields are kept in
    insertion order; a key that is not listed is absent from the object. *)
#[warnings="-register-all"]
Inductive jsdata : Type :=
  | DVal (v : jsval)
  | DArr (items : list jsdata)
  | DObj (fields : list (string * jsdata)).

(** ToBoolean. *)
Definition truthy (v : jsval) : bool :=
  match v with
  | JUndefined | JNull => false
  | JStr s => negb (String.eqb s EmptyString)
  | JNative _ | JObjectPrototype => true
  end.

(** [a || b] on evaluated operands: the left one when it is truthy. *)
Definition js_or (a b : jsval) : jsval := if truthy a then a else b.

(** ToString, as a template literal applies it. Built-in functions print
    the way Node prints them. *)
Definition to_string (v : jsval) : string :=
  match v with
  | JUndefined => "undefined"
  | JNull => "null"
  | JStr s => s
  | JNative name => "function " ++ name ++ "() { [native code] }"
  | JObjectPrototype => "[object Object]"
  end.

(** [x === y] where [x] is known to be a string. *)
Definition strict_eq_str (x : string) (y : jsval) : bool :=
  match y with
  | JStr s => String.eqb x s
  | _ => false
  end.

(** The properties every ordinary object inherits from [Object.prototype]. *)
Definition object_prototype (key : string) : jsval :=
  if String.eqb key "constructor" then JNative "Object"
  else if String.eqb key "__proto__" then JObjectPrototype
  else if existsb (String.eqb key)
            [ "__defineGetter__"; "__defineSetter__"; "hasOwnProperty";
              "__lookupGetter__"; "__lookupSetter__"; "isPrototypeOf";
              "propertyIsEnumerable"; "toString"; "valueOf";
              "toLocaleString" ]
       then JNative key
  else JUndefined.

(** [obj[key]] on an object literal whose own properties are the strings of
    [own]: the own property if there is one, else the inherited one. *)
Definition get (own : gmap string string) (key : string) : jsval :=
  match own !! key with
  | Some s => JStr s
  | None => object_prototype key
  end.

(** *** [String.prototype.trim]

    White space and line terminators of ECMAScript, by their UTF-8
    encodings: one byte (TAB, LF, VT, FF, CR, SP), two bytes (U+00A0), or
    three (U+1680, U+2000..U+200A, U+2028, U+2029, U+202F, U+205F, U+3000,
    U+FEFF). *)
Definition ws1 (a : ascii) : bool :=
  let n := nat_of_ascii a in
  (Nat.leb 9 n && Nat.leb n 13) || Nat.eqb n 32.

Definition ws2 (a b : ascii) : bool :=
  Nat.eqb (nat_of_ascii a) 194 && Nat.eqb (nat_of_ascii b) 160.

Definition ws3 (a b c : ascii) : bool :=
  let x := nat_of_ascii a in
  let y := nat_of_ascii b in
  let z := nat_of_ascii c in
  (Nat.eqb x 225 && Nat.eqb y 154 && Nat.eqb z 128)
  || (Nat.eqb x 226 && Nat.eqb y 128
      && ((Nat.leb 128 z && Nat.leb z 138)
          || Nat.eqb z 168 || Nat.eqb z 169 || Nat.eqb z 175))
  || (Nat.eqb x 226 && Nat.eqb y 129 && Nat.eqb z 159)
  || (Nat.eqb x 227 && Nat.eqb y 128 && Nat.eqb z 128)
  || (Nat.eqb x 239 && Nat.eqb y 187 && Nat.eqb z 191).

(** Drop white space from the front. With [back = true] the argument is a
    reversed string, so each encoding is met last byte first. *)
Fixpoint strip (back : bool) (s : string) : string :=
  match s with
  | EmptyString => s
  | String a r1 =>
      if ws1 a then strip back r1
      else
        match r1 with
        | EmptyString => s
        | String b r2 =>
            if (if back then ws2 b a else ws2 a b) then strip back r2
            else
              match r2 with
              | EmptyString => s
              | String c r3 =>
                  if (if back then ws3 c b a else ws3 a b c)
                  then strip back r3
                  else s
              end
        end
  end.

Definition rev_string (s : string) : string :=
  string_of_list_ascii (List.rev (list_ascii_of_string s)).

Definition trim (s : string) : string :=
  rev_string (strip true (rev_string (strip false s))).

End Js.
Import Js.

(** ** Code shared by both variants of [server.js] *)

Definition nl : string := String (ascii_of_nat 10) EmptyString.

(** [const EMOJI_MAP = { ... }] *)
Definition EMOJI_MAP : gmap string string :=
  list_to_map
    [ ("New Customer Onboarding", "🆕");
      ("Integration Issue", "🛠️");
      ("Feature Requests", "✨");
      ("Training Requests", "📚");
      ("Account/Billing Question", "🧾");
      ("Something else?", "❓") ].

(** [const priorityMap = { ... }], local to [createAsanaTask]. *)
Definition priorityMap : gmap string string :=
  list_to_map
    [ ("Low", "low"); ("Medium", "medium"); ("High", "high");
      ("Urgent", "high") ].

(** The object [parseFormData] returns. *)
Record FormData : Type := mkFormData {
  name : jsval;
  email : jsval;
  requestType : jsval;
  description : jsval;
  priority : jsval
}.

(** [function parseFormData(body)]. The body is the posted key-value record:
    its own properties are strings, every other key is missing. *)
Definition parseFormData (body : gmap string string) : FormData :=
  {| name :=
       js_or
         (JStr (trim (to_string (js_or (get body "firstName") (JStr EmptyString))
                      ++ " "
                      ++ to_string (js_or (get body "lastName") (JStr EmptyString)))))
         (JStr "Unnamed Request");
     email := js_or (get body "email") (JStr "no-email@provided.com");
     requestType := js_or (get body "requestType") (JStr "General");
     description := js_or (get body "description") (JStr "No description provided");
     priority := js_or (get body "priority") (JStr "Medium") |}.

(** [EMOJI_MAP[formData.requestType] || EMOJI_MAP['Something else?']] *)
Definition emoji (formData : FormData) : jsval :=
  js_or (get EMOJI_MAP (to_string (requestType formData)))
        (get EMOJI_MAP "Something else?").

(** [priorityMap[formData.priority] || 'medium'] *)
Definition priorityValue (formData : FormData) : jsval :=
  js_or (get priorityMap (to_string (priority formData))) (JStr "medium").

(** The [notes] template literal, trimmed. *)
Definition notes (formData : FormData) : string :=
  trim (nl ++ "Request from: " ++ to_string (email formData) ++ nl
        ++ "Type: " ++ to_string (requestType formData) ++ nl
        ++ "Priority: " ++ to_string (priority formData) ++ nl
        ++ nl
        ++ "Description:" ++ nl
        ++ to_string (description formData) ++ nl
        ++ "            ").

Section TaskData.

(** [process.env.ASANA_PROJECT_ID]: a string, or [undefined] when unset. *)
Variable ASANA_PROJECT_ID : jsval.

(** [...(sectionId && { memberships: [...] })]: a falsy operand spreads no
    property at all; a truthy one spreads the single key [memberships]. *)
Definition memberships_spread (sectionId : jsval) : list (string * jsdata) :=
  if truthy sectionId then
    [ ("memberships",
       DArr [ DObj [ ("project", DVal ASANA_PROJECT_ID);
                     ("section", DVal sectionId) ] ]) ]
  else [].

(** [const taskData = { data: { ... } }], once [sectionId] is known. *)
Definition taskData (formData : FormData) (sectionId : jsval) : jsdata :=
  DObj
    [ ("data",
       DObj
         ([ ("name",
             DVal (JStr (to_string (emoji formData) ++ " ["
                         ++ to_string (requestType formData) ++ "] "
                         ++ to_string (name formData))));
            ("notes", DVal (JStr (notes formData)));
            ("projects", DArr [ DVal ASANA_PROJECT_ID ]);
            ("priority", DVal (priorityValue formData)) ]
          ++ memberships_spread sectionId)) ].

End TaskData.

(** Reading the command back: [d[key]] when [d] is an object that has the
    key, and the list of keys an object has. *)
Definition prop (key : string) (d : jsdata) : option jsdata :=
  match d with
  | DObj fields =>
      snd <$> List.find (fun kv => String.eqb (fst kv) key) fields
  | _ => None
  end.

Definition keys (d : jsdata) : list string :=
  match d with
  | DObj fields => fst <$> fields
  | _ => []
  end.

(** [taskData.data.<key>] *)
Definition data_prop (key : string) (d : jsdata) : option jsdata :=
  prop "data" d ≫= prop key.

(** ** The tracker as seen from the server

    Each call of [getProjectSections] issues one GET for the section listing
    of the project. The world is the sequence of answers the tracker will
    give; a request that finds no answer left fails like an unreachable
    host. *)

Record AsanaSection : Type := mkSection { sec_name : string; gid : string }.

Inductive reply : Type :=
  | Listing (sections : list AsanaSection)
  | Unreachable.

Definition World : Type := list reply.

Definition M (A : Type) : Type := World -> A * World.

Definition ret {A} (a : A) : M A := fun w => (a, w).

Definition bind {A B} (m : M A) (k : A -> M B) : M B :=
  fun w => let (a, w') := m w in k a w'.

Notation "x <- m ;; k" := (bind m (fun x => k))
  (at level 100, m at next level, right associativity).

(** [async function getProjectSections()]: the listing, or [[]] from the
    [catch] branch. *)
Definition getProjectSections : M (list AsanaSection) :=
  fun w =>
    match w with
    | Listing sections :: w' => (sections, w')
    | Unreachable :: w' => ([], w')
    | [] => ([], [])
    end.

(** ** Variant of [server.js]: sections are looked up by name *)

Module ByName.

(** [const SECTION_MAP = { ... }]: request type to section name. *)
Definition SECTION_MAP : gmap string string :=
  list_to_map
    [ ("New Customer Onboarding", "🆕 New Customer Onboarding");
      ("Integration Issue", "🛠️ Integration Issue");
      ("Feature Requests", "✨ Feature Requests");
      ("Training Requests", "📚 Training Requests");
      ("Account/Billing Question", "🧾 Account/Billing Question");
      ("Something else?", "❓ Something Else?") ].

(** [async function getSectionIdByName(sectionName)] *)
Definition getSectionIdByName (sectionName : jsval) : M jsval :=
  sections <- getProjectSections ;;
  ret (match List.find (fun s => strict_eq_str (sec_name s) sectionName)
                       sections with
       | None => JNull
       | Some section => JStr (gid section)
       end).

(** [let sectionId = null; const sectionName = SECTION_MAP[...];
    if (sectionName) { sectionId = await getSectionIdByName(sectionName); }] *)
Definition sectionId (formData : FormData) : M jsval :=
  let sectionName := get SECTION_MAP (to_string (requestType formData)) in
  if truthy sectionName then getSectionIdByName sectionName else ret JNull.

Section Composer.

Variable ASANA_PROJECT_ID : jsval.

(** [async function createAsanaTask(formData)], up to the payload it hands
    to [axios.post]. *)
Definition createAsanaTask (formData : FormData) : M jsdata :=
  id <- sectionId formData ;;
  ret (taskData ASANA_PROJECT_ID formData id).

(** The [/webhook] handler: normalise, then compose. *)
Definition webhook (body : gmap string string) : M jsdata :=
  createAsanaTask (parseFormData body).

End Composer.

End ByName.

(** ** Variant of the second server file: section ids are stored directly *)

Module ById.

(** [const SECTION_MAP = { ... }]: request type to section gid. *)
Definition SECTION_MAP : gmap string string :=
  list_to_map
    [ ("New Customer Onboarding", "1211512835831277");
      ("Integration Issue", "1211512835831283");
      ("Feature Requests", "1211512835831274");
      ("Training Requests", "1211512835831271");
      ("Account/Billing Question", "1211512835831280");
      ("Something else?", "1211512835831288") ].

(** [const sectionId = SECTION_MAP[formData.requestType] || null] *)
Definition sectionId (formData : FormData) : jsval :=
  js_or (get SECTION_MAP (to_string (requestType formData))) JNull.

Section Composer.

Variable ASANA_PROJECT_ID : jsval.

(** [async function createAsanaTask(formData)], up to the payload it hands
    to [axios.post]. No request is made to the tracker before that. *)
Definition createAsanaTask (formData : FormData) : M jsdata :=
  ret (taskData ASANA_PROJECT_ID formData (sectionId formData)).

Definition webhook (body : gmap string string) : M jsdata :=
  createAsanaTask (parseFormData body).

End Composer.

End ById.

(** ** The spreadsheet trigger, [onFormSubmit] of [trigger.gs] *)

Module Trigger.

(** [e.namedValues[q] ? e.namedValues[q][0] : ''], followed by
    [JSON.stringify], which leaves out a property whose value is
    [undefined] (the first element of an empty answer list). *)
Definition named (namedValues : gmap string (list string)) (q : string)
  : option string :=
  match namedValues !! q with
  | Some (answer :: _) => Some answer
  | Some [] => None
  | None => Some EmptyString
  end.

Definition put (key : string) (value : option string)
  (obj : gmap string string) : gmap string string :=
  match value with
  | Some s => <[key := s]> obj
  | None => obj
  end.

(** The posted JSON record. *)
Definition formData (namedValues : gmap string (list string))
  : gmap string string :=
  put "firstName" (named namedValues "First Name")
    (put "lastName" (named namedValues "Last Name")
       (put "email" (named namedValues "Email")
          (put "requestType" (named namedValues "Request Type")
             (put "description" (named namedValues "Request Description")
                (put "priority" (named namedValues "Priority") ∅))))).

(** [function onFormSubmit(e)]: nothing is posted when the event carries no
    named values. *)
Definition onFormSubmit (e : option (gmap string (list string)))
  : option (gmap string string) :=
  formData <$> e.

End Trigger.

(** ** Vocabulary of the properties *)

(** A normalised field: a non-empty string. *)
Definition filled (v : jsval) : Prop :=
  exists s, v = JStr s /\ s <> EmptyString.

(** A task command: the object [{ data: { name, notes, projects, priority,
    ... } }] with a non-empty title and a truthy priority value. *)
Definition command (ASANA_PROJECT_ID : jsval) (t : jsdata) : Prop :=
  exists title text prio placement,
    t = DObj
          [ ("data",
             DObj (("name", DVal (JStr title))
                   :: ("notes", DVal (JStr text))
                   :: ("projects", DArr [ DVal ASANA_PROJECT_ID ])
                   :: ("priority", DVal prio)
                   :: placement)) ]
    /\ title <> EmptyString
    /\ truthy prio = true.

(** The keys of [taskData.data]. *)
Definition data_keys (t : jsdata) : list string :=
  match prop "data" t with
  | Some d => keys d
  | None => []
  end.

(** First and last name as posted (blank when missing), joined by one space
    and trimmed. *)
Definition joinedNames (body : gmap string string) : string :=
  trim (default EmptyString (body !! "firstName") ++ " "
        ++ default EmptyString (body !! "lastName")).

(** The request body given as the example in the documentation. *)
Definition sarah : gmap string string :=
  list_to_map
    [ ("firstName", "Sarah"); ("lastName", "Johnson");
      ("email", "sarah.johnson@example.com");
      ("requestType", "Feature Requests");
      ("description", "Add dark mode to dashboard");
      ("priority", "High") ].

(** Two invocations, one after the other. *)
Definition twice {A} (m : M A) : M (A * A) :=
  a <- m ;; b <- m ;; ret (a, b).

(** The sections the tracker reports to the next listing request. *)
Definition reported (w : World) : list AsanaSection :=
  fst (getProjectSections w).

(** ** Vocabulary of the further properties *)

(** The request types the form offers, in the order of the tables. *)
Definition requestTypes : list string :=
  [ "New Customer Onboarding"; "Integration Issue"; "Feature Requests";
    "Training Requests"; "Account/Billing Question"; "Something else?" ].

(** A section listing agrees with the stored gids when, for each request
    type, the first section carrying the mapped name has the mapped gid. *)
Definition agrees (sections : list AsanaSection) : bool :=
  forallb
    (fun k =>
       match ByName.SECTION_MAP !! k, ById.SECTION_MAP !! k with
       | Some nm, Some g =>
           match List.find (fun s => String.eqb (sec_name s) nm) sections with
           | Some s => String.eqb (gid s) g
           | None => false
           end
       | _, _ => false
       end)
    requestTypes.

(** The project as the README sets it up, with the gids of the second
    server file. *)
Definition project_sections : list AsanaSection :=
  [ mkSection "🆕 New Customer Onboarding" "1211512835831277";
    mkSection "🛠️ Integration Issue" "1211512835831283";
    mkSection "✨ Feature Requests" "1211512835831274";
    mkSection "📚 Training Requests" "1211512835831271";
    mkSection "🧾 Account/Billing Question" "1211512835831280";
    mkSection "❓ Something Else?" "1211512835831288" ].

(** The first answer a form event holds for a question; blank when the
    question is missing from the event or has no answer. *)
Definition firstAnswer (namedValues : gmap string (list string)) (q : string)
  : string :=
  match namedValues !! q with
  | Some (answer :: _) => answer
  | _ => EmptyString
  end.

(** [s || d] on strings. *)
Definition or_else (s d : string) : string :=
  if String.eqb s EmptyString then d else s.

(** The keys of the record the trigger posts. *)
Definition postedKeys : list string :=
  [ "firstName"; "lastName"; "email"; "requestType"; "description";
    "priority" ].

(** [String.prototype.trimStart] and [trimEnd], the two halves of [trim]. *)
Definition trimStart (s : string) : string := strip false s.

Definition trimEnd (s : string) : string :=
  rev_string (strip true (rev_string s)).

(** A byte below 128: a character of one byte. *)
Definition ascii7 (q : ascii) : bool := Nat.ltb (nat_of_ascii q) 128.

(** Two posted records hold the same under each of the six keys. *)
Definition same_fields (body body' : gmap string string) : bool :=
  forallb (fun k => bool_decide (body !! k = body' !! k)) postedKeys.

(** ** Replaying the sheet, [processExistingRows] of [trigger.gs]

    A row of the response sheet: the time stamp of column A, in milliseconds
    as a date compares, and the values of columns B to G as
    [getRange(i, c).getValue()] returns them, of whatever type the cells
    have (text, numbers, booleans, dates): [cell]. Rows are counted from 1,
    row 1 being the header. *)

Record SheetRow (cell : Type) : Type := mkRow {
  timestamp : Z;
  colB : cell; colC : cell; colD : cell;
  colE : cell; colF : cell; colG : cell
}.

Arguments mkRow {cell}.
Arguments timestamp {cell}.
Arguments colB {cell}.
Arguments colC {cell}.
Arguments colD {cell}.
Arguments colE {cell}.
Arguments colF {cell}.
Arguments colG {cell}.

(** The [formData] object built from a row, the object that is posted. *)
Definition rowData {cell : Type} (r : SheetRow cell) : gmap string cell :=
  list_to_map
    [ ("firstName", colB r); ("lastName", colC r); ("email", colD r);
      ("requestType", colE r); ("description", colF r);
      ("priority", colG r) ].

(** What the loop does with a row: it skips it, or posts it, and the fetch
    either returns or throws into the [catch] of that row. *)
Inductive rowEvent (cell : Type) : Type :=
  | Skipped (i : nat)
  | Posted (i : nat) (payload : gmap string cell) (returned : bool).

Arguments Skipped {cell}.
Arguments Posted {cell}.

Definition event_row {cell : Type} (e : rowEvent cell) : nat :=
  match e with
  | Skipped i => i
  | Posted i _ _ => i
  end.

Definition event_payload {cell : Type} (e : rowEvent cell)
  : option (gmap string cell) :=
  match e with
  | Skipped _ => None
  | Posted _ payload _ => Some payload
  end.

Section Replay.

Context {cell : Type}.

(** [new Date('9/30/2025 15:28:08')] in the time zone of the script. *)
Variable cutoff : Z.

(** [sheet.getRange(i, _).getValue()] *)
Variable sheet : nat -> SheetRow cell.

(** The body of the [for] loop from row [i] on, [n] rows to go. The
    outcomes of the fetches to come are [net]; one is used by each row that
    is posted, and a fetch with no outcome left throws. *)
Fixpoint rows_from (i n : nat) (net : list bool) : list (rowEvent cell) :=
  match n with
  | O => []
  | S n' =>
      if Z.leb cutoff (timestamp (sheet i))
      then Skipped i :: rows_from (S i) n' net
      else
        match net with
        | returned :: net' =>
            Posted i (rowData (sheet i)) returned :: rows_from (S i) n' net'
        | [] => Posted i (rowData (sheet i)) false :: rows_from (S i) n' []
        end
  end.

(** [function processExistingRows()]: [for (var i = 2; i <= lastRow; i++)]. *)
Definition processExistingRows (lastRow : nat) (net : list bool)
  : list (rowEvent cell) :=
  rows_from 2 (lastRow - 1) net.

End Replay.

(** ** Properties *)

(** Lookups in an object literal, one key at a time. *)
Ltac read_fields :=
  cbn [prop List.find fst snd fmap option_fmap option_map mbind option_bind
       app];
  try reflexivity.

Ltac split_keys k :=
  repeat (match goal with
          | |- context [String.eqb ?a k] => destruct (String.eqb_spec a k)
          | H : context [String.eqb ?a k] |- _ =>
              destruct (String.eqb_spec a k)
          end;
          try reflexivity; try congruence).

(** *** Trimming, on examples *)

Example trim_ascii :
  trim (nl ++ "  Sarah Johnson " ++ nl ++ "   ") = "Sarah Johnson".
Proof. reflexivity. Qed.

Example trim_blank : trim " " = EmptyString.
Proof. reflexivity. Qed.

(** U+00A0 in front and U+2029 behind are white space; the inner space and
    the bytes of the marker stay. *)
Example trim_unicode :
  trim (String (ascii_of_nat 194) (String (ascii_of_nat 160) "✨ x")
        ++ String (ascii_of_nat 226)
             (String (ascii_of_nat 128)
                (String (ascii_of_nat 169) EmptyString)))
  = "✨ x".
Proof. reflexivity. Qed.

Example notes_defaults :
  notes (parseFormData ∅)
  = "Request from: no-email@provided.com" ++ nl
    ++ "Type: General" ++ nl
    ++ "Priority: Medium" ++ nl ++ nl
    ++ "Description:" ++ nl
    ++ "No description provided".
Proof. vm_compute. reflexivity. Qed.

(** Nothing is posted for an event without named values. *)
Example onFormSubmit_nothing : Trigger.onFormSubmit None = None.
Proof. reflexivity. Qed.

(** *** Reading properties *)

Lemma get_own (own : gmap string string) (key s : string) :
  own !! key = Some s -> get own key = JStr s.
Proof. intros H. unfold get. now rewrite H. Qed.

Lemma get_missing (own : gmap string string) (key : string) :
  own !! key = None -> get own key = object_prototype key.
Proof. intros H. unfold get. now rewrite H. Qed.

Lemma get_insert (own : gmap string string) (key s : string) :
  get (<[key := s]> own) key = JStr s.
Proof. apply get_own, lookup_insert_eq. Qed.

Lemma truthy_str (s : string) :
  truthy (JStr s) = true <-> s <> EmptyString.
Proof.
  unfold truthy. rewrite negb_true_iff. split.
  - intros H ->. discriminate.
  - intros H. now apply String.eqb_neq.
Qed.

(** [obj[key] || d] for a key that [Object.prototype] does not define, a
    string-valued record [obj] and a non-empty default: always a non-empty
    string, and the default exactly when the key is missing or blank. *)
Lemma or_default_cases (obj : gmap string string) (key d : string) :
  object_prototype key = JUndefined ->
  js_or (get obj key) (JStr d) =
    match obj !! key with
    | Some s => if String.eqb s EmptyString then JStr d else JStr s
    | None => JStr d
    end.
Proof.
  intros Hp. unfold js_or, get. destruct (obj !! key) as [s|].
  - simpl. now destruct (String.eqb s EmptyString).
  - now rewrite Hp.
Qed.

Lemma or_default_filled (obj : gmap string string) (key d : string) :
  object_prototype key = JUndefined -> d <> EmptyString ->
  filled (js_or (get obj key) (JStr d)).
Proof.
  intros Hp Hd. rewrite or_default_cases by exact Hp.
  destruct (obj !! key) as [s|]; [|now exists d].
  destruct (String.eqb_spec s EmptyString); [now exists d | now exists s].
Qed.

Lemma or_str_filled (s d : string) :
  d <> EmptyString -> filled (js_or (JStr s) (JStr d)).
Proof.
  intros Hd. unfold js_or, truthy.
  destruct (String.eqb_spec s EmptyString); simpl; [now exists d | now exists s].
Qed.

(** Every field of the record [parseFormData] returns is a non-empty
    string, whatever the posted record holds. *)
Lemma parseFormData_filled (body : gmap string string) :
  let fd := parseFormData body in
  filled (name fd) /\ filled (email fd) /\ filled (requestType fd)
  /\ filled (description fd) /\ filled (priority fd).
Proof.
  cbv zeta. unfold parseFormData; cbn [name email requestType description priority].
  repeat split;
    first [ apply or_str_filled; discriminate
          | apply or_default_filled; [reflexivity | discriminate] ].
Qed.

(** *** Reading the composed command *)

Section Command.

Variable ASANA_PROJECT_ID : jsval.

Lemma priorityValue_truthy (fd : FormData) : truthy (priorityValue fd) = true.
Proof.
  unfold priorityValue, js_or.
  destruct (truthy (get priorityMap (to_string (priority fd)))) eqn:E;
    [exact E | reflexivity].
Qed.

Lemma taskData_command (fd : FormData) (id : jsval) :
  command ASANA_PROJECT_ID (taskData ASANA_PROJECT_ID fd id).
Proof.
  unfold command, taskData. eexists _, _, _, _. split; [reflexivity|].
  split; [|apply priorityValue_truthy].
  destruct (to_string (emoji fd)); discriminate.
Qed.

Lemma data_prop_name (fd : FormData) (id : jsval) :
  data_prop "name" (taskData ASANA_PROJECT_ID fd id)
  = Some (DVal (JStr (to_string (emoji fd) ++ " ["
                      ++ to_string (requestType fd) ++ "] "
                      ++ to_string (name fd)))).
Proof. reflexivity. Qed.

Lemma data_prop_notes (fd : FormData) (id : jsval) :
  data_prop "notes" (taskData ASANA_PROJECT_ID fd id)
  = Some (DVal (JStr (notes fd))).
Proof. reflexivity. Qed.

Lemma data_prop_projects (fd : FormData) (id : jsval) :
  data_prop "projects" (taskData ASANA_PROJECT_ID fd id)
  = Some (DArr [ DVal ASANA_PROJECT_ID ]).
Proof. reflexivity. Qed.

Lemma data_prop_priority (fd : FormData) (id : jsval) :
  data_prop "priority" (taskData ASANA_PROJECT_ID fd id)
  = Some (DVal (priorityValue fd)).
Proof. reflexivity. Qed.

Lemma data_prop_memberships (fd : FormData) (id : jsval) :
  data_prop "memberships" (taskData ASANA_PROJECT_ID fd id)
  = if truthy id
    then Some (DArr [ DObj [ ("project", DVal ASANA_PROJECT_ID);
                             ("section", DVal id) ] ])
    else None.
Proof.
  unfold data_prop, taskData, memberships_spread.
  destruct (truthy id); reflexivity.
Qed.

Lemma data_keys_taskData (fd : FormData) (id : jsval) :
  data_keys (taskData ASANA_PROJECT_ID fd id)
  = ([ "name"; "notes"; "projects"; "priority" ]
     ++ (if truthy id then [ "memberships" ] else []))%list.
Proof.
  unfold data_keys, taskData, memberships_spread.
  destruct (truthy id); reflexivity.
Qed.

Lemma ById_webhook (body : gmap string string) (w : World) :
  ById.webhook ASANA_PROJECT_ID body w
  = (taskData ASANA_PROJECT_ID (parseFormData body)
       (ById.sectionId (parseFormData body)), w).
Proof. reflexivity. Qed.

Lemma ByName_createAsanaTask (fd : FormData) (w : World) :
  ByName.createAsanaTask ASANA_PROJECT_ID fd w
  = (taskData ASANA_PROJECT_ID fd (fst (ByName.sectionId fd w)),
     snd (ByName.sectionId fd w)).
Proof.
  unfold ByName.createAsanaTask, bind, ret.
  now destruct (ByName.sectionId fd w).
Qed.

Lemma ByName_webhook (body : gmap string string) (w : World) :
  ByName.webhook ASANA_PROJECT_ID body w
  = (taskData ASANA_PROJECT_ID (parseFormData body)
       (fst (ByName.sectionId (parseFormData body) w)),
     snd (ByName.sectionId (parseFormData body) w)).
Proof. apply ByName_createAsanaTask. Qed.

(** C1. Whatever record is posted, normalisation returns a record whose
    five fields are all filled in, and composition then returns exactly one
    result, which is a task command (an object, never [null]); this holds
    for both variants of the server and for every behaviour of the
    tracker. *)
Theorem C1_pipeline_total (body : gmap string string) (w : World) :
  (let fd := parseFormData body in
   filled (name fd) /\ filled (email fd) /\ filled (requestType fd)
   /\ filled (description fd) /\ filled (priority fd))
  /\ (exists! r, ById.webhook ASANA_PROJECT_ID body w = r
                 /\ command ASANA_PROJECT_ID (fst r))
  /\ (exists! r, ByName.webhook ASANA_PROJECT_ID body w = r
                 /\ command ASANA_PROJECT_ID (fst r)).
Proof.
  split; [apply parseFormData_filled|]. split.
  - exists (ById.webhook ASANA_PROJECT_ID body w). split.
    + split; [reflexivity|]. rewrite ById_webhook. apply taskData_command.
    + now intros r [<- _].
  - exists (ByName.webhook ASANA_PROJECT_ID body w). split.
    + split; [reflexivity|]. rewrite ByName_webhook. apply taskData_command.
    + now intros r [<- _].
Qed.

End Command.

(** C2. [parseFormData] puts a default in the place of each absent field:
    the name is the placeholder when first and last name are both absent,
    and email, request type, description and priority each get their own
    default. *)
Theorem C2_defaults (body : gmap string string) :
  (body !! "firstName" = None -> body !! "lastName" = None ->
   name (parseFormData body) = JStr "Unnamed Request")
  /\ (body !! "email" = None ->
      email (parseFormData body) = JStr "no-email@provided.com")
  /\ (body !! "requestType" = None ->
      requestType (parseFormData body) = JStr "General")
  /\ (body !! "description" = None ->
      description (parseFormData body) = JStr "No description provided")
  /\ (body !! "priority" = None ->
      priority (parseFormData body) = JStr "Medium").
Proof.
  unfold parseFormData; cbn [name email requestType description priority].
  repeat split.
  - intros Hf Hl. rewrite (get_missing _ _ Hf), (get_missing _ _ Hl).
    reflexivity.
  - intros H. now rewrite (get_missing _ _ H).
  - intros H. now rewrite (get_missing _ _ H).
  - intros H. now rewrite (get_missing _ _ H).
  - intros H. now rewrite (get_missing _ _ H).
Qed.

Lemma C2_defaults_witness :
  parseFormData ∅
  = {| name := JStr "Unnamed Request";
       email := JStr "no-email@provided.com";
       requestType := JStr "General";
       description := JStr "No description provided";
       priority := JStr "Medium" |}.
Proof.
  destruct (C2_defaults ∅) as (Hn & He & Ht & Hd & Hp).
  destruct (parseFormData ∅) as [n e t d p] eqn:E.
  cbn [name email requestType description priority] in *.
  rewrite Hn, He, Ht, Hd, Hp by reflexivity. reflexivity.
Defined.

(** *** Blank fields *)

Lemma or_blank_same (body : gmap string string) (k key : string) (d : jsval) :
  object_prototype key = JUndefined ->
  js_or (get (<[k := EmptyString]> body) key) d
  = js_or (get (delete k body) key) d.
Proof.
  intros Hp. destruct (decide (k = key)) as [->|Hne].
  - rewrite get_insert. unfold get. now rewrite lookup_delete_eq, Hp.
  - unfold get. now rewrite lookup_insert_ne, lookup_delete_ne.
Qed.

Lemma parseFormData_blank (body : gmap string string) (k : string) :
  parseFormData (<[k := EmptyString]> body) = parseFormData (delete k body).
Proof.
  unfold parseFormData. now rewrite !or_blank_same by reflexivity.
Qed.

Lemma put_lookup_eq (key : string) (v : option string)
  (obj : gmap string string) :
  obj !! key = None -> Trigger.put key v obj !! key = v.
Proof.
  intros H. destruct v as [s|]; simpl; [apply lookup_insert_eq | exact H].
Qed.

Lemma put_lookup_ne (k key : string) (v : option string)
  (obj : gmap string string) :
  k <> key -> Trigger.put k v obj !! key = obj !! key.
Proof.
  intros H. destruct v as [s|]; simpl; [now apply lookup_insert_ne | reflexivity].
Qed.

Ltac put_lookup :=
  unfold Trigger.formData;
  repeat (rewrite put_lookup_ne by discriminate);
  rewrite put_lookup_eq; [reflexivity|];
  repeat (rewrite put_lookup_ne by discriminate);
  apply lookup_empty.

(** What the posted record holds under each key. *)
Lemma formData_lookup (nv : gmap string (list string)) :
  Trigger.formData nv !! "firstName" = Trigger.named nv "First Name"
  /\ Trigger.formData nv !! "lastName" = Trigger.named nv "Last Name"
  /\ Trigger.formData nv !! "email" = Trigger.named nv "Email"
  /\ Trigger.formData nv !! "requestType" = Trigger.named nv "Request Type"
  /\ Trigger.formData nv !! "description"
     = Trigger.named nv "Request Description"
  /\ Trigger.formData nv !! "priority" = Trigger.named nv "Priority".
Proof. repeat split; put_lookup. Qed.

Lemma named_missing (nv : gmap string (list string)) (q : string) :
  nv !! q = None -> Trigger.named nv q = Some EmptyString.
Proof. intros H. unfold Trigger.named. now rewrite H. Qed.

(** C10. A field that is present but blank is normalised exactly like an
    absent one, so both variants compose the same command for the two
    records; and a form answer that is missing, which the trigger posts as
    a blank string, ends up as the default of its field. *)
Theorem C10_blank_like_absent
  (body : gmap string string) (k : string) (nv : gmap string (list string)) :
  parseFormData (<[k := EmptyString]> body) = parseFormData (delete k body)
  /\ (forall pid w,
        ById.webhook pid (<[k := EmptyString]> body) w
        = ById.webhook pid (delete k body) w
        /\ ByName.webhook pid (<[k := EmptyString]> body) w
           = ByName.webhook pid (delete k body) w)
  /\ (let fd := parseFormData (Trigger.formData nv) in
      (nv !! "First Name" = None -> nv !! "Last Name" = None ->
       name fd = JStr "Unnamed Request")
      /\ (nv !! "Email" = None -> email fd = JStr "no-email@provided.com")
      /\ (nv !! "Request Type" = None -> requestType fd = JStr "General")
      /\ (nv !! "Request Description" = None ->
          description fd = JStr "No description provided")
      /\ (nv !! "Priority" = None -> priority fd = JStr "Medium")).
Proof.
  split; [apply parseFormData_blank|]. split.
  - intros pid w. unfold ById.webhook, ByName.webhook.
    now rewrite parseFormData_blank.
  - destruct (formData_lookup nv) as (Hf & Hl & He & Ht & Hd & Hp).
    cbv zeta. unfold parseFormData;
      cbn [name email requestType description priority].
    repeat split.
    + intros H1 H2.
      rewrite (get_own _ _ _ (eq_trans Hf (named_missing _ _ H1))).
      rewrite (get_own _ _ _ (eq_trans Hl (named_missing _ _ H2))).
      reflexivity.
    + intros H. now rewrite (get_own _ _ _ (eq_trans He (named_missing _ _ H))).
    + intros H. now rewrite (get_own _ _ _ (eq_trans Ht (named_missing _ _ H))).
    + intros H. now rewrite (get_own _ _ _ (eq_trans Hd (named_missing _ _ H))).
    + intros H. now rewrite (get_own _ _ _ (eq_trans Hp (named_missing _ _ H))).
Qed.

Lemma C10_blank_like_absent_witness :
  parseFormData (Trigger.formData ∅)
  = {| name := JStr "Unnamed Request";
       email := JStr "no-email@provided.com";
       requestType := JStr "General";
       description := JStr "No description provided";
       priority := JStr "Medium" |}.
Proof.
  destruct (C10_blank_like_absent ∅ "email" ∅)
    as (_ & _ & Hn & He & Ht & Hd & Hp).
  destruct (parseFormData (Trigger.formData ∅)) as [n e t d p] eqn:E.
  cbn [name email requestType description priority] in *.
  rewrite Hn, He, Ht, Hd, Hp by reflexivity. reflexivity.
Defined.

(** *** Priority *)

Lemma priority_posted (body : gmap string string) (p : string) :
  p <> EmptyString ->
  priority (parseFormData (<["priority" := p]> body)) = JStr p.
Proof.
  intros Hp. unfold parseFormData; cbn [priority].
  rewrite get_insert. unfold js_or.
  now rewrite (proj2 (truthy_str p) Hp).
Qed.

Lemma priorityValue_of (fd : FormData) (p : string) :
  priority fd = JStr p ->
  priorityValue fd = js_or (get priorityMap p) (JStr "medium").
Proof. intros H. unfold priorityValue. now rewrite H. Qed.

(** A label that is neither a key of [priorityMap] nor a name defined by
    [Object.prototype] gets the value of [Medium]. *)
Lemma priorityValue_unmapped (fd : FormData) (p : string) :
  priority fd = JStr p ->
  priorityMap !! p = None ->
  object_prototype p = JUndefined ->
  priorityValue fd = JStr "medium"
  /\ get priorityMap "Medium" = JStr "medium".
Proof.
  intros Hf Hm Hp. split; [|reflexivity].
  rewrite (priorityValue_of _ _ Hf), (get_missing _ _ Hm), Hp. reflexivity.
Qed.

Lemma priorityValue_absent (body : gmap string string) :
  body !! "priority" = None \/ body !! "priority" = Some EmptyString ->
  priorityValue (parseFormData body) = JStr "medium".
Proof.
  intros H.
  assert (priority (parseFormData body) = JStr "Medium") as Hp.
  { unfold parseFormData; cbn [priority].
    rewrite or_default_cases by reflexivity. now destruct H as [-> | ->]. }
  now rewrite (priorityValue_of _ _ Hp).
Qed.

(** C7. Two records that differ only in the priority label, [Urgent] in
    one and [High] in the other, get the same priority value, the one
    [priorityMap] gives for [High]. *)
Theorem C7_urgent_like_high
  (pid : jsval) (body : gmap string string) (w : World) :
  let urgent := <["priority" := "Urgent"]> body in
  let high := <["priority" := "High"]> body in
  data_prop "priority" (fst (ById.webhook pid urgent w))
  = data_prop "priority" (fst (ById.webhook pid high w))
  /\ data_prop "priority" (fst (ByName.webhook pid urgent w))
     = data_prop "priority" (fst (ByName.webhook pid high w))
  /\ data_prop "priority" (fst (ById.webhook pid urgent w))
     = Some (DVal (get priorityMap "High"))
  /\ data_prop "priority" (fst (ByName.webhook pid urgent w))
     = Some (DVal (get priorityMap "High"))
  /\ get priorityMap "High" = JStr "high".
Proof.
  cbv zeta. rewrite !ById_webhook, !ByName_webhook. cbn [fst].
  rewrite !data_prop_priority.
  rewrite (priorityValue_of _ "Urgent") by (now apply priority_posted).
  rewrite (priorityValue_of _ "High") by (now apply priority_posted).
  repeat split.
Qed.

(** *** The documented example *)

(** C8. For the request body of the documentation, the title is
    [✨ [Feature Requests] Sarah Johnson], the section is the one
    [SECTION_MAP] gives for [Feature Requests] (its gid in the variant
    that stores gids; in the other, the gid the listing gives for the
    section of that name), and the priority value is the one mapped to
    [High]. *)
Theorem C8_sarah
  (pid : jsval) (w : World) (sections : list AsanaSection) :
  let fd := parseFormData sarah in
  let t := fst (ById.webhook pid sarah w) in
  let t' := fst (ByName.webhook pid sarah (Listing sections :: w)) in
  data_prop "name" t = Some (DVal (JStr "✨ [Feature Requests] Sarah Johnson"))
  /\ data_prop "name" t' = data_prop "name" t
  /\ ById.sectionId fd = get ById.SECTION_MAP "Feature Requests"
  /\ ById.sectionId fd = JStr "1211512835831274"
  /\ data_prop "memberships" t
     = Some (DArr [ DObj [ ("project", DVal pid);
                           ("section", DVal (JStr "1211512835831274")) ] ])
  /\ fst (ByName.sectionId fd (Listing sections :: w))
     = match List.find
               (fun s => String.eqb (sec_name s) "✨ Feature Requests")
               sections with
       | Some s => JStr (gid s)
       | None => JNull
       end
  /\ data_prop "priority" t = Some (DVal (get priorityMap "High"))
  /\ data_prop "priority" t' = Some (DVal (get priorityMap "High"))
  /\ get priorityMap "High" = JStr "high".
Proof.
  cbv zeta. rewrite ById_webhook, ByName_webhook. cbn [fst].
  rewrite !data_prop_name, !data_prop_priority, data_prop_memberships.
  repeat split; vm_compute; reflexivity.
Qed.

(** *** Title *)

Lemma or_blank_default (obj : gmap string string) (key : string) :
  object_prototype key = JUndefined ->
  js_or (get obj key) (JStr EmptyString)
  = JStr (default EmptyString (obj !! key)).
Proof.
  intros Hp. unfold js_or, get. destruct (obj !! key) as [s|].
  - simpl. now destruct (String.eqb_spec s EmptyString) as [->|].
  - now rewrite Hp.
Qed.

Lemma name_joined (body : gmap string string) :
  name (parseFormData body)
  = JStr (if String.eqb (joinedNames body) EmptyString
          then "Unnamed Request" else joinedNames body).
Proof.
  unfold parseFormData; cbn [name].
  rewrite !or_blank_default by reflexivity. cbn [to_string].
  fold (joinedNames body). unfold js_or, truthy.
  now destruct (String.eqb (joinedNames body) EmptyString).
Qed.

(** C4. The title is the marker, the category in square brackets and the
    full name, separated by single spaces. The full name is first and last
    name joined by one space and trimmed, or the placeholder when that is
    empty; in particular it is the placeholder when both names are absent
    or blank. *)
Theorem C4_title (pid : jsval) (body : gmap string string) (w : World) :
  let fd := parseFormData body in
  let full := if String.eqb (joinedNames body) EmptyString
              then "Unnamed Request" else joinedNames body in
  let title := to_string (emoji fd) ++ " [" ++ to_string (requestType fd)
               ++ "] " ++ full in
  data_prop "name" (fst (ById.webhook pid body w)) = Some (DVal (JStr title))
  /\ data_prop "name" (fst (ByName.webhook pid body w))
     = Some (DVal (JStr title))
  /\ ((body !! "firstName" = None \/ body !! "firstName" = Some EmptyString) ->
      (body !! "lastName" = None \/ body !! "lastName" = Some EmptyString) ->
      full = "Unnamed Request").
Proof.
  cbv zeta. rewrite ById_webhook, ByName_webhook. cbn [fst].
  rewrite !data_prop_name, name_joined. cbn [to_string].
  repeat split. intros Hf Hl. unfold joinedNames.
  destruct Hf as [-> | ->], Hl as [-> | ->]; reflexivity.
Qed.

Lemma C4_title_witness :
  data_prop "name" (fst (ById.webhook (JStr "1200") ∅ []))
  = Some (DVal (JStr "❓ [General] Unnamed Request")).
Proof.
  destruct (C4_title (JStr "1200") ∅ []) as (H & _ & Hfull).
  rewrite H, Hfull; [reflexivity | now left | now left].
Defined.

(** *** Category lookup *)

(** A category that is neither a key of the tables nor a name defined by
    [Object.prototype] gets the marker of [Something else?] and no
    section. *)
Lemma unmapped_category (fd : FormData) (rt : string) (w : World) :
  requestType fd = JStr rt ->
  object_prototype rt = JUndefined ->
  (EMOJI_MAP !! rt = None -> emoji fd = JStr "❓")
  /\ (ById.SECTION_MAP !! rt = None -> ById.sectionId fd = JNull)
  /\ (ByName.SECTION_MAP !! rt = None -> ByName.sectionId fd w = (JNull, w)).
Proof.
  intros Hrt Hp. repeat split; intros Hm.
  - unfold emoji. rewrite Hrt. cbn [to_string].
    now rewrite (get_missing _ _ Hm), Hp.
  - unfold ById.sectionId. rewrite Hrt. cbn [to_string].
    now rewrite (get_missing _ _ Hm), Hp.
  - unfold ByName.sectionId. rewrite Hrt. cbn [to_string].
    now rewrite (get_missing _ _ Hm), Hp.
Qed.

(** C3. The request type [constructor] is not a key of [EMOJI_MAP] or of
    [SECTION_MAP], yet the lookup finds the property all objects inherit:
    the marker is the built-in function [Object], not the fallback marker,
    and where gids are stored the section id is that function, not [null],
    so the command gets a [memberships] entry. *)
Theorem C3_inherited_category :
  let body : gmap string string := {[ "requestType" := "constructor" ]} in
  let fd := parseFormData body in
  requestType fd = JStr "constructor"
  /\ EMOJI_MAP !! "constructor" = None
  /\ ById.SECTION_MAP !! "constructor" = None
  /\ get EMOJI_MAP "Something else?" = JStr "❓"
  /\ emoji fd = JNative "Object"
  /\ ById.sectionId fd = JNative "Object"
  /\ data_prop "name" (fst (ById.webhook (JStr "1200") body []))
     = Some (DVal (JStr
          "function Object() { [native code] } [constructor] Unnamed Request"))
  /\ data_prop "memberships" (fst (ById.webhook (JStr "1200") body []))
     = Some (DArr [ DObj [ ("project", DVal (JStr "1200"));
                           ("section", DVal (JNative "Object")) ] ]).
Proof. repeat split; vm_compute; reflexivity. Qed.

(** C6. The priority label [constructor] is not a key of [priorityMap],
    yet the lookup finds the inherited property, and the priority value is
    the built-in function [Object] instead of the value of [Medium]. *)
Theorem C6_inherited_priority :
  let body : gmap string string := {[ "priority" := "constructor" ]} in
  let fd := parseFormData body in
  priority fd = JStr "constructor"
  /\ priorityMap !! "constructor" = None
  /\ get priorityMap "Medium" = JStr "medium"
  /\ priorityValue fd = JNative "Object"
  /\ data_prop "priority" (fst (ById.webhook (JStr "1200") body []))
     = Some (DVal (JNative "Object"))
  /\ data_prop "priority" (fst (ByName.webhook (JStr "1200") body []))
     = Some (DVal (JNative "Object")).
Proof. repeat split; vm_compute; reflexivity. Qed.

(** *** Placement *)

(** Apart from [memberships], no field of the command depends on the
    section id. *)
Lemma data_prop_other
  (pid : jsval) (fd : FormData) (id id' : jsval) (k : string) :
  k <> "memberships" ->
  data_prop k (taskData pid fd id) = data_prop k (taskData pid fd id').
Proof.
  intros Hk. unfold data_prop, taskData, memberships_spread. read_fields.
  change (String.eqb "data" "data") with true. read_fields.
  split_keys k.
  destruct (truthy id), (truthy id'); read_fields; split_keys k.
Qed.

(** No field of [taskData.data] is [null], whatever the section id. *)
Lemma data_prop_not_null
  (pid : jsval) (fd : FormData) (id : jsval) (k : string) :
  data_prop k (taskData pid fd id) <> Some (DVal JNull).
Proof.
  pose proof (priorityValue_truthy fd) as Hp.
  unfold data_prop, taskData, memberships_spread. read_fields.
  change (String.eqb "data" "data") with true. read_fields.
  split_keys k; read_fields; try (intros H; discriminate H).
  - intros H. inversion H as [E]. rewrite E in Hp. discriminate.
  - destruct (truthy id); read_fields; split_keys k; read_fields;
      intros H; discriminate H.
Qed.

(** C5, as the code has it. The [memberships] entry, with project and
    section, is there exactly when the section id is truthy: for every
    other id, [null] and a blank gid alike, [taskData.data] has the keys
    [name], [notes], [projects] and [priority] and no [memberships] key.
    No field of [taskData.data] is ever [null]. In particular, when no
    section was resolved the command has no placement field at all. *)
Theorem C5_placement_omitted
  (pid : jsval) (body : gmap string string) (w : World) :
  let fd := parseFormData body in
  let t := fst (ById.webhook pid body w) in
  let t' := fst (ByName.webhook pid body w) in
  let id := ById.sectionId fd in
  let id' := fst (ByName.sectionId fd w) in
  (id = JNull ->
   data_keys t = [ "name"; "notes"; "projects"; "priority" ]
   /\ data_prop "memberships" t = None)
  /\ (id' = JNull ->
      data_keys t' = [ "name"; "notes"; "projects"; "priority" ]
      /\ data_prop "memberships" t' = None)
  /\ (truthy id = true ->
      data_prop "memberships" t
      = Some (DArr [ DObj [ ("project", DVal pid);
                            ("section", DVal id) ] ]))
  /\ (truthy id' = true ->
      data_prop "memberships" t'
      = Some (DArr [ DObj [ ("project", DVal pid);
                            ("section", DVal id') ] ]))
  /\ (truthy id = false ->
      data_keys t = [ "name"; "notes"; "projects"; "priority" ]
      /\ data_prop "memberships" t = None)
  /\ (truthy id' = false ->
      data_keys t' = [ "name"; "notes"; "projects"; "priority" ]
      /\ data_prop "memberships" t' = None)
  /\ (data_prop "memberships" t <> None <-> truthy id = true)
  /\ (data_prop "memberships" t' <> None <-> truthy id' = true)
  /\ (forall k, data_prop k t <> Some (DVal JNull))
  /\ (forall k, data_prop k t' <> Some (DVal JNull)).
Proof.
  cbv zeta. rewrite ById_webhook, ByName_webhook. cbn [fst].
  rewrite !data_keys_taskData, !data_prop_memberships.
  set (id := ById.sectionId (parseFormData body)).
  set (id' := fst (ByName.sectionId (parseFormData body) w)).
  split; [intros Hid; rewrite Hid; split; reflexivity|].
  split; [intros Hid; rewrite Hid; split; reflexivity|].
  split; [intros Hid; rewrite Hid; reflexivity|].
  split; [intros Hid; rewrite Hid; reflexivity|].
  split; [intros Hid; rewrite Hid; split; reflexivity|].
  split; [intros Hid; rewrite Hid; split; reflexivity|].
  split; [destruct (truthy id); split; congruence|].
  split; [destruct (truthy id'); split; congruence|].
  split; intros k; apply data_prop_not_null.
Qed.

Lemma C5_placement_omitted_witness :
  data_keys (fst (ById.webhook (JStr "1200") ∅ []))
  = [ "name"; "notes"; "projects"; "priority" ]
  /\ data_prop "memberships" (fst (ById.webhook (JStr "1200") sarah []))
     = Some (DArr [ DObj [ ("project", DVal (JStr "1200"));
                           ("section", DVal (JStr "1211512835831274")) ] ])
  /\ data_keys
       (fst (ByName.webhook (JStr "1200") sarah
               [ Listing [ mkSection "✨ Feature Requests" EmptyString ] ]))
     = [ "name"; "notes"; "projects"; "priority" ].
Proof.
  split; [|split].
  - pose proof (C5_placement_omitted (JStr "1200") ∅ []) as H.
    cbv zeta in H. destruct H as (H & _). apply H. reflexivity.
  - pose proof (C5_placement_omitted (JStr "1200") sarah []) as H.
    cbv zeta in H. destruct H as (_ & _ & H & _). apply H. reflexivity.
  - pose proof (C5_placement_omitted (JStr "1200") sarah
                  [ Listing [ mkSection "✨ Feature Requests" EmptyString ] ])
      as H.
    cbv zeta in H. destruct H as (_ & _ & _ & _ & _ & H & _).
    apply H. reflexivity.
Defined.

(** At the empty record no section is resolved, and the command then has
    no [memberships] key and no field whose value is [null]. *)
Lemma C5_no_null_field :
  let t := fst (ById.webhook (JStr "1200") ∅ []) in
  let t' := fst (ByName.webhook (JStr "1200") ∅ []) in
  ById.sectionId (parseFormData ∅) = JNull
  /\ fst (ByName.sectionId (parseFormData ∅) []) = JNull
  /\ data_prop "memberships" t = None
  /\ data_prop "memberships" t' = None
  /\ ~ (exists k, data_prop k t = Some (DVal JNull))
  /\ ~ (exists k, data_prop k t' = Some (DVal JNull)).
Proof.
  cbv zeta. rewrite ById_webhook, ByName_webhook. cbn [fst].
  change (fst (ByName.sectionId (parseFormData ∅) [])) with JNull.
  change (ById.sectionId (parseFormData ∅)) with JNull.
  rewrite !data_prop_memberships.
  assert (forall k,
            data_prop k (taskData (JStr "1200") (parseFormData ∅) JNull)
            <> Some (DVal JNull)) as Hno.
  { intros k. unfold data_prop, taskData, memberships_spread. read_fields.
    change (String.eqb "data" "data") with true. read_fields.
    split_keys k; discriminate. }
  repeat split; try reflexivity; intros [k Hk]; exact (Hno k Hk).
Qed.

(** *** Repeated invocations *)

Lemma ByName_sectionId_reported (fd : FormData) (w w' : World) :
  reported w = reported w' ->
  fst (ByName.sectionId fd w) = fst (ByName.sectionId fd w').
Proof.
  unfold reported, ByName.sectionId. intros H.
  destruct (truthy _); [|reflexivity].
  unfold ByName.getSectionIdByName, bind, ret.
  destruct (getProjectSections w) as [s v], (getProjectSections w') as [s' v'].
  cbn [fst] in *. now subst s'.
Qed.

(** C9, as the code has it. Where section gids are stored, the command is
    a function of the posted record and the project id alone: any two
    invocations give the same command. Where sections are resolved by
    name, title, body, project and priority do not depend on the tracker
    either, and the whole command is the same whenever the tracker reports
    the same sections. *)
Theorem C9_deterministic
  (pid : jsval) (body : gmap string string) (w w' : World) :
  fst (ById.webhook pid body w) = fst (ById.webhook pid body w')
  /\ (let r := fst (twice (ById.webhook pid body) w) in fst r = snd r)
  /\ (forall k, k <> "memberships" ->
        data_prop k (fst (ByName.webhook pid body w))
        = data_prop k (fst (ByName.webhook pid body w')))
  /\ (reported w = reported w' ->
      fst (ByName.webhook pid body w) = fst (ByName.webhook pid body w')).
Proof.
  split; [reflexivity|]. split; [reflexivity|]. split.
  - intros k Hk. rewrite !ByName_webhook. cbn [fst].
    now apply data_prop_other.
  - intros H. rewrite !ByName_webhook. cbn [fst].
    now rewrite (ByName_sectionId_reported _ _ _ H).
Qed.

Lemma C9_deterministic_witness :
  fst (ByName.webhook (JStr "1200") sarah [])
  = fst (ByName.webhook (JStr "1200") sarah [Unreachable])
  /\ data_prop "name" (fst (ByName.webhook (JStr "1200") sarah []))
     = data_prop "name"
         (fst (ByName.webhook (JStr "1200") sarah
                 [Listing [mkSection "✨ Feature Requests" "1211512835831274"]])).
Proof.
  split.
  - apply (C9_deterministic (JStr "1200") sarah [] [Unreachable]).
    reflexivity.
  - apply (C9_deterministic (JStr "1200") sarah []
             [Listing [mkSection "✨ Feature Requests" "1211512835831274"]]).
    discriminate.
Defined.

(** Two invocations of the name-resolving variant with the same record:
    the tracker answers the first listing request and fails the second, and
    the two commands differ in their placement. *)
Lemma C9_listing_dependence :
  let w := [ Listing [ mkSection "✨ Feature Requests" "1211512835831274" ];
             Unreachable ] in
  let r := fst (twice (ByName.webhook (JStr "1200") sarah) w) in
  fst r <> snd r
  /\ data_prop "memberships" (fst r)
     = Some (DArr [ DObj [ ("project", DVal (JStr "1200"));
                           ("section", DVal (JStr "1211512835831274")) ] ])
  /\ data_prop "memberships" (snd r) = None.
Proof.
  cbv zeta. repeat split; try (vm_compute; reflexivity).
  intros H. apply (f_equal (data_prop "memberships")) in H.
  vm_compute in H. discriminate.
Qed.

(** ** Further properties of the code *)

(** *** Resolving a section by name *)

Lemma find_none_ext {A} (f : A -> bool) (l : list A) :
  List.find f l = None <-> (forall x, x ∈ l -> f x = false).
Proof.
  split.
  - intros H x Hx. apply list_elem_of_In in Hx.
    exact (List.find_none f l H x Hx).
  - intros H. induction l as [|a l IH]; [reflexivity|]. cbn.
    rewrite (H a) by constructor. apply IH. intros x Hx. apply H.
    now constructor.
Qed.

Lemma getSectionIdByName_find (v : jsval) (w : World) :
  fst (ByName.getSectionIdByName v w)
  = match List.find (fun s => strict_eq_str (sec_name s) v) (reported w) with
    | Some s => JStr (gid s)
    | None => JNull
    end.
Proof.
  unfold ByName.getSectionIdByName, reported, bind, ret.
  now destruct (getProjectSections w).
Qed.

(** X1. [getSectionIdByName] answers [null] exactly when no reported
    section carries the name; in particular when the listing could not be
    fetched, because [getProjectSections] turns the failure into an empty
    listing. *)
Theorem getSectionIdByName_null (n : string) (v : jsval) (w : World) :
  (fst (ByName.getSectionIdByName (JStr n) w) = JNull
   <-> forall s, s ∈ reported w -> sec_name s <> n)
  /\ ByName.getSectionIdByName v (Unreachable :: w) = (JNull, w)
  /\ ByName.getSectionIdByName v [] = (JNull, []).
Proof.
  split; [|split; reflexivity].
  rewrite getSectionIdByName_find.
  destruct (List.find _ (reported w)) as [s|] eqn:E.
  - split; [discriminate|]. intros H. exfalso.
    destruct (List.find_some _ _ E) as [Hin Heq].
    apply (H s); [now apply list_elem_of_In|].
    now apply String.eqb_eq.
  - split; [|reflexivity]. intros _ s Hs.
    apply find_none_ext with (x := s) in E; [|exact Hs].
    now apply String.eqb_neq.
Qed.

(** X2. When several sections carry the name, the gid of the first one in
    the listing is taken. *)
Theorem getSectionIdByName_first
  (pre post : list AsanaSection) (s : AsanaSection) (w : World) :
  List.find (fun x => String.eqb (sec_name x) (sec_name s)) pre = None ->
  ByName.getSectionIdByName (JStr (sec_name s))
    (Listing (pre ++ s :: post) :: w)
  = (JStr (gid s), w).
Proof.
  intros H. unfold ByName.getSectionIdByName, bind, ret, getProjectSections.
  f_equal. induction pre as [|a pre IH]; cbn in *.
  - now rewrite String.eqb_refl.
  - destruct (String.eqb (sec_name a) (sec_name s)); [discriminate|].
    now apply IH.
Qed.

Lemma getSectionIdByName_first_witness :
  ByName.getSectionIdByName (JStr "Inbox")
    [ Listing [ mkSection "Done" "1"; mkSection "Inbox" "2";
                mkSection "Inbox" "3" ] ]
  = (JStr "2", []).
Proof.
  apply (getSectionIdByName_first [mkSection "Done" "1"]
           [mkSection "Inbox" "3"] (mkSection "Inbox" "2") []).
  reflexivity.
Defined.

(** *** The routing tables *)

Lemma object_prototype_not_str (key s : string) :
  object_prototype key <> JStr s.
Proof.
  unfold object_prototype.
  destruct (String.eqb key "constructor"); [discriminate|].
  destruct (String.eqb key "__proto__"); [discriminate|].
  destruct (existsb _ _); discriminate.
Qed.

Lemma get_str (own : gmap string string) (key s : string) :
  get own key = JStr s <-> own !! key = Some s.
Proof.
  unfold get. destruct (own !! key) as [s'|].
  - split; intros H; now inversion H.
  - split; [|discriminate]. intros H. now apply object_prototype_not_str in H.
Qed.

Lemma table_keys (l : list (string * string)) (k : string) :
  is_Some ((list_to_map l : gmap string string) !! k) <-> k ∈ l.*1.
Proof.
  rewrite <- elem_of_dom, dom_list_to_map_L. apply elem_of_list_to_set.
Qed.

Lemma keys_requestTypes (k : string) :
  (is_Some (EMOJI_MAP !! k) <-> k ∈ requestTypes)
  /\ (is_Some (ById.SECTION_MAP !! k) <-> k ∈ requestTypes)
  /\ (is_Some (ByName.SECTION_MAP !! k) <-> k ∈ requestTypes).
Proof. split; [|split]; apply table_keys. Qed.

(** X3. The three tables have the same keys, the six request types of the
    form: a request type has a marker of its own exactly when it has a
    section, in either variant. *)
Theorem tables_same_keys (k : string) :
  (is_Some (EMOJI_MAP !! k) <-> k ∈ requestTypes)
  /\ (is_Some (ById.SECTION_MAP !! k) <-> k ∈ requestTypes)
  /\ (is_Some (ByName.SECTION_MAP !! k) <-> k ∈ requestTypes).
Proof. exact (keys_requestTypes k). Qed.

Lemma table_entry (l : list (string * string)) (k v : string) :
  (list_to_map l : gmap string string) !! k = Some v -> (k, v) ∈ l.
Proof. apply elem_of_list_to_map_2. Qed.

Ltac entries H :=
  apply table_entry in H;
  repeat (apply elem_of_cons in H; destruct H as [H|H];
          [inversion H; subst; clear H|]);
  try (now apply elem_of_nil in H).

(** X4. Routing keeps request types apart: two request types are never
    sent to the same section, by gid or by name, and never share a
    marker. *)
Theorem tables_injective (k1 k2 v : string) :
  (ById.SECTION_MAP !! k1 = Some v -> ById.SECTION_MAP !! k2 = Some v ->
   k1 = k2)
  /\ (ByName.SECTION_MAP !! k1 = Some v ->
      ByName.SECTION_MAP !! k2 = Some v -> k1 = k2)
  /\ (EMOJI_MAP !! k1 = Some v -> EMOJI_MAP !! k2 = Some v -> k1 = k2).
Proof.
  repeat split; intros H1 H2; entries H1; entries H2; reflexivity.
Qed.

Lemma section_names_filled (k v : string) :
  ByName.SECTION_MAP !! k = Some v -> v <> EmptyString.
Proof. intros H. entries H; discriminate. Qed.

Lemma section_gids_filled (k v : string) :
  ById.SECTION_MAP !! k = Some v -> v <> EmptyString.
Proof. intros H. entries H; discriminate. Qed.

Lemma getSectionIdByName_nonstr (v : jsval) (w : World) :
  (forall s, v <> JStr s) -> fst (ByName.getSectionIdByName v w) = JNull.
Proof.
  intros Hv. rewrite getSectionIdByName_find.
  destruct (List.find _ _) as [s|] eqn:E; [|reflexivity].
  apply List.find_some in E as [_ E]. destruct v; try discriminate.
  now destruct (Hv s0).
Qed.

Lemma ByName_sectionId_unmapped (fd : FormData) (w : World) :
  ByName.SECTION_MAP !! to_string (requestType fd) = None ->
  fst (ByName.sectionId fd w) = JNull.
Proof.
  intros H. unfold ByName.sectionId. rewrite (get_missing _ _ H).
  destruct (truthy _); [|reflexivity].
  apply getSectionIdByName_nonstr. intros s.
  apply object_prototype_not_str.
Qed.

(** X5. Where sections are resolved by name, a command carries a
    [memberships] entry only for one of the six request types: any other
    category, the names every object inherits included, is left without
    placement. *)
Theorem ByName_places_request_types_only
  (pid : jsval) (body : gmap string string) (w : World) :
  data_prop "memberships" (fst (ByName.webhook pid body w)) <> None ->
  to_string (requestType (parseFormData body)) ∈ requestTypes.
Proof.
  rewrite ByName_webhook. cbn [fst]. rewrite data_prop_memberships.
  intros H. destruct (keys_requestTypes
                        (to_string (requestType (parseFormData body))))
    as (_ & _ & Hk). apply Hk.
  destruct (ByName.SECTION_MAP !! _) as [nm|] eqn:E; [now exists nm|].
  rewrite (ByName_sectionId_unmapped _ _ E) in H. now destruct H.
Qed.

Lemma ByName_places_request_types_only_witness :
  "Feature Requests" ∈ requestTypes.
Proof.
  apply (ByName_places_request_types_only (JStr "1200") sarah
           [Listing project_sections]).
  vm_compute. discriminate.
Defined.

(** *** The two variants side by side *)

Lemma section_tables_keys (k : string) :
  is_Some (ById.SECTION_MAP !! k) <-> is_Some (ByName.SECTION_MAP !! k).
Proof.
  destruct (keys_requestTypes k) as (_ & H1 & H2). now rewrite H1, H2.
Qed.

Lemma agrees_lookup (sections : list AsanaSection) (k nm g : string) :
  agrees sections = true ->
  ByName.SECTION_MAP !! k = Some nm ->
  ById.SECTION_MAP !! k = Some g ->
  exists s, List.find (fun s => String.eqb (sec_name s) nm) sections = Some s
            /\ gid s = g.
Proof.
  intros Ha Hn Hg. unfold agrees in Ha.
  assert (k ∈ requestTypes) as Hk.
  { destruct (keys_requestTypes k) as (_ & H & _). apply H. eauto. }
  apply list_elem_of_In in Hk.
  pose proof (proj1 (forallb_forall _ _) Ha k Hk) as H. cbv beta in H.
  rewrite Hn, Hg in H.
  destruct (List.find _ sections) as [s|]; [|discriminate].
  exists s. split; [reflexivity|]. now apply String.eqb_eq.
Qed.

(** X6. When the section listing agrees with the stored gids, the two
    variants of the server compose the same command, for every category
    that is not a name objects inherit. *)
Theorem variants_agree
  (pid : jsval) (fd : FormData) (sections : list AsanaSection) (w : World) :
  agrees sections = true ->
  object_prototype (to_string (requestType fd)) = JUndefined ->
  fst (ByName.createAsanaTask pid fd (Listing sections :: w))
  = fst (ById.createAsanaTask pid fd w).
Proof.
  intros Ha Hp. rewrite ByName_createAsanaTask.
  unfold ById.createAsanaTask, ret. cbn [fst]. f_equal.
  unfold ById.sectionId.
  destruct (ById.SECTION_MAP !! to_string (requestType fd)) as [g|] eqn:Eg.
  - assert (is_Some (ByName.SECTION_MAP !! to_string (requestType fd)))
      as [nm En] by (apply section_tables_keys; eauto).
    destruct (agrees_lookup _ _ _ _ Ha En Eg) as (s & Hs & <-).
    rewrite (get_own _ _ _ Eg). unfold js_or.
    rewrite (proj2 (truthy_str _) (section_gids_filled _ _ Eg)).
    unfold ByName.sectionId. rewrite (get_own _ _ _ En).
    rewrite (proj2 (truthy_str _) (section_names_filled _ _ En)).
    rewrite getSectionIdByName_find. cbn [strict_eq_str].
    change (reported (Listing sections :: w)) with sections.
    now rewrite Hs.
  - rewrite (get_missing _ _ Eg), Hp. cbn.
    apply ByName_sectionId_unmapped.
    destruct (ByName.SECTION_MAP !! _) eqn:En; [|reflexivity].
    assert (is_Some (ById.SECTION_MAP !! to_string (requestType fd)))
      as [g Hg] by (apply section_tables_keys; eauto).
    congruence.
Qed.

Lemma variants_agree_witness :
  fst (ByName.createAsanaTask (JStr "1200") (parseFormData sarah)
         [Listing project_sections])
  = fst (ById.createAsanaTask (JStr "1200") (parseFormData sarah) []).
Proof.
  apply (variants_agree (JStr "1200") (parseFormData sarah)
           project_sections []); reflexivity.
Defined.

(** *** Priority values *)

(** X7. Unless the label is a name objects inherit, the priority value of
    a command is one of [low], [medium] and [high]. *)
Theorem priorityValue_range (fd : FormData) :
  object_prototype (to_string (priority fd)) = JUndefined ->
  priorityValue fd ∈ [ JStr "low"; JStr "medium"; JStr "high" ].
Proof.
  intros Hp. unfold priorityValue, get.
  destruct (priorityMap !! to_string (priority fd)) as [v|] eqn:E.
  - entries E; cbn; set_solver.
  - rewrite Hp. cbn. set_solver.
Qed.

Lemma priorityValue_range_witness :
  priorityValue (parseFormData {[ "priority" := "urgent" ]})
  ∈ [ JStr "low"; JStr "medium"; JStr "high" ].
Proof.
  apply (priorityValue_range (parseFormData {[ "priority" := "urgent" ]})).
  reflexivity.
Defined.

(** *** From the form event to the normalised record *)

Lemma named_default (nv : gmap string (list string)) (q : string) :
  default EmptyString (Trigger.named nv q) = firstAnswer nv q.
Proof.
  unfold Trigger.named, firstAnswer.
  now destruct (nv !! q) as [[|a l]|].
Qed.

Lemma or_default_named
  (nv : gmap string (list string)) (key q d : string) :
  object_prototype key = JUndefined ->
  Trigger.formData nv !! key = Trigger.named nv q ->
  js_or (get (Trigger.formData nv) key) (JStr d)
  = JStr (or_else (firstAnswer nv q) d).
Proof.
  intros Hp Hk. rewrite or_default_cases by exact Hp. rewrite Hk.
  unfold Trigger.named, firstAnswer, or_else.
  destruct (nv !! q) as [[|a l]|]; try reflexivity.
  now destruct (String.eqb a EmptyString).
Qed.

(** X8. End to end from the form event: each field of the normalised
    record is the first answer to its question, or the default of the field
    when the question is missing from the event, has no answer, or the
    answer is blank; further answers are ignored. *)
Theorem trigger_then_parse (nv : gmap string (list string)) :
  parseFormData (Trigger.formData nv)
  = {| name :=
         JStr (or_else (trim (firstAnswer nv "First Name" ++ " "
                              ++ firstAnswer nv "Last Name"))
                       "Unnamed Request");
       email := JStr (or_else (firstAnswer nv "Email")
                              "no-email@provided.com");
       requestType := JStr (or_else (firstAnswer nv "Request Type")
                                    "General");
       description := JStr (or_else (firstAnswer nv "Request Description")
                                    "No description provided");
       priority := JStr (or_else (firstAnswer nv "Priority") "Medium") |}.
Proof.
  destruct (formData_lookup nv) as (Hf & Hl & He & Ht & Hd & Hp).
  unfold parseFormData.
  rewrite (or_default_named nv "email" "Email") by (reflexivity || exact He).
  rewrite (or_default_named nv "requestType" "Request Type")
    by (reflexivity || exact Ht).
  rewrite (or_default_named nv "description" "Request Description")
    by (reflexivity || exact Hd).
  rewrite (or_default_named nv "priority" "Priority")
    by (reflexivity || exact Hp).
  rewrite !or_blank_default by reflexivity.
  rewrite Hf, Hl, !named_default. cbn [to_string].
  f_equal. unfold js_or, truthy, or_else.
  now destruct (String.eqb _ EmptyString).
Qed.

Lemma put_is_Some (k key : string) (v : option string)
  (obj : gmap string string) :
  is_Some (Trigger.put k v obj !! key) -> key = k \/ is_Some (obj !! key).
Proof.
  destruct (decide (k = key)) as [->|Hne]; [now left|].
  rewrite put_lookup_ne by exact Hne. now right.
Qed.

(** X9. The trigger posts nothing but the six fields: no other column of
    the form (the timestamp, say) reaches the server. *)
Theorem trigger_posts_six_keys (nv : gmap string (list string)) :
  dom (Trigger.formData nv) ⊆ list_to_set postedKeys.
Proof.
  intros k Hk. apply elem_of_dom in Hk. apply elem_of_list_to_set.
  unfold Trigger.formData in Hk. unfold postedKeys.
  repeat (apply put_is_Some in Hk as [->|Hk]; [set_solver|]).
  rewrite lookup_empty in Hk. now destruct Hk.
Qed.

(** *** Trimming next to a one-byte character *)

Lemma append_cons (x : ascii) (a b : string) :
  String x a ++ b = String x (a ++ b).
Proof. reflexivity. Qed.

Lemma append_nil (b : string) : EmptyString ++ b = b.
Proof. reflexivity. Qed.

Lemma append_assoc (a b c : string) : (a ++ b) ++ c = a ++ (b ++ c).
Proof.
  induction a as [|x a IH]; [reflexivity|].
  now rewrite !append_cons, IH.
Qed.

Lemma append_empty_r (a : string) : a ++ EmptyString = a.
Proof.
  induction a as [|x a IH]; [reflexivity|]. now rewrite append_cons, IH.
Qed.

Lemma list_ascii_of_string_app (a b : string) :
  list_ascii_of_string (a ++ b)
  = (list_ascii_of_string a ++ list_ascii_of_string b)%list.
Proof.
  induction a as [|x a IH]; [reflexivity|].
  rewrite append_cons. cbn [list_ascii_of_string app]. now rewrite IH.
Qed.

Lemma string_of_list_ascii_app (l l' : list ascii) :
  string_of_list_ascii (l ++ l')
  = string_of_list_ascii l ++ string_of_list_ascii l'.
Proof.
  induction l as [|x l IH]; [reflexivity|].
  cbn [string_of_list_ascii app]. now rewrite append_cons, IH.
Qed.

Lemma rev_string_app (a b : string) :
  rev_string (a ++ b) = rev_string b ++ rev_string a.
Proof.
  unfold rev_string.
  now rewrite list_ascii_of_string_app, rev_app_distr,
    string_of_list_ascii_app.
Qed.

Lemma rev_string_involutive (s : string) : rev_string (rev_string s) = s.
Proof.
  unfold rev_string.
  now rewrite list_ascii_of_string_of_list_ascii, rev_involutive,
    string_of_list_ascii_of_string.
Qed.

Lemma rev_string_cons (a : ascii) (s : string) :
  rev_string (String a s) = rev_string s ++ String a EmptyString.
Proof. exact (rev_string_app (String a EmptyString) s). Qed.

Lemma ascii7_code (q : ascii) (k : nat) :
  ascii7 q = true -> 128 <= k -> Nat.eqb (nat_of_ascii q) k = false.
Proof.
  unfold ascii7. intros Hq Hk. apply Nat.ltb_lt in Hq.
  apply Nat.eqb_neq. lia.
Qed.

Lemma ascii7_above (q : ascii) (k : nat) :
  ascii7 q = true -> 128 <= k -> Nat.leb k (nat_of_ascii q) = false.
Proof.
  unfold ascii7. intros Hq Hk. apply Nat.ltb_lt in Hq.
  apply Nat.leb_gt. lia.
Qed.

Ltac ascii7_off Hq :=
  rewrite ?(ascii7_code _ _ Hq) by lia;
  rewrite ?(ascii7_above _ _ Hq) by lia;
  rewrite ?andb_false_r, ?andb_false_l, ?orb_false_r, ?orb_false_l;
  try reflexivity.

Lemma ws2_ascii7 (q a : ascii) :
  ascii7 q = true -> ws2 q a = false /\ ws2 a q = false.
Proof. intros Hq. unfold ws2. split; ascii7_off Hq. Qed.

Lemma ws3_ascii7 (q a b : ascii) :
  ascii7 q = true ->
  ws3 q a b = false /\ ws3 a q b = false /\ ws3 a b q = false.
Proof.
  intros Hq. unfold ws3. cbv zeta. repeat split; ascii7_off Hq.
Qed.

(** The steps of [strip], one equation for each branch. *)
Lemma strip_ws1 (m : bool) (a : ascii) (r : string) :
  ws1 a = true -> strip m (String a r) = strip m r.
Proof. intros H. cbn [strip]. now rewrite H. Qed.

Lemma strip_one (m : bool) (a : ascii) :
  ws1 a = false -> strip m (String a EmptyString) = String a EmptyString.
Proof. intros H. cbn [strip]. now rewrite H. Qed.

Lemma strip_ws2 (m : bool) (a b : ascii) (r : string) :
  ws1 a = false -> (if m then ws2 b a else ws2 a b) = true ->
  strip m (String a (String b r)) = strip m r.
Proof. intros H1 H2. cbn [strip]. now rewrite H1, H2. Qed.

Lemma strip_two (m : bool) (a b : ascii) :
  ws1 a = false -> (if m then ws2 b a else ws2 a b) = false ->
  strip m (String a (String b EmptyString))
  = String a (String b EmptyString).
Proof. intros H1 H2. cbn [strip]. now rewrite H1, H2. Qed.

Lemma strip_ws3 (m : bool) (a b c : ascii) (r : string) :
  ws1 a = false -> (if m then ws2 b a else ws2 a b) = false ->
  (if m then ws3 c b a else ws3 a b c) = true ->
  strip m (String a (String b (String c r))) = strip m r.
Proof. intros H1 H2 H3. cbn [strip]. now rewrite H1, H2, H3. Qed.

Lemma strip_stop (m : bool) (a b c : ascii) (r : string) :
  ws1 a = false -> (if m then ws2 b a else ws2 a b) = false ->
  (if m then ws3 c b a else ws3 a b c) = false ->
  strip m (String a (String b (String c r)))
  = String a (String b (String c r)).
Proof. intros H1 H2 H3. cbn [strip]. now rewrite H1, H2, H3. Qed.

Lemma ws2_at (m : bool) (q a : ascii) :
  ascii7 q = true ->
  (if m then ws2 q a else ws2 a q) = false
  /\ (if m then ws2 a q else ws2 q a) = false.
Proof.
  intros Hq. destruct (ws2_ascii7 q a Hq) as [H1 H2]. now destruct m.
Qed.

Lemma ws3_at (m : bool) (q a b : ascii) :
  ascii7 q = true ->
  (if m then ws3 q a b else ws3 b a q) = false
  /\ (if m then ws3 a q b else ws3 b q a) = false
  /\ (if m then ws3 a b q else ws3 q b a) = false.
Proof.
  intros Hq. destruct (ws3_ascii7 q a b Hq) as (H1 & H2 & H3).
  destruct (ws3_ascii7 q b a Hq) as (H4 & H5 & H6). now destruct m.
Qed.

(** A one-byte character is never part of a longer white-space encoding:
    what [strip] does to the text before it does not depend on it. *)
Lemma strip_app_ascii7 (m : bool) (q : ascii) (y : string) :
  ascii7 q = true ->
  forall n x, String.length x <= n ->
    strip m (x ++ String q y)
    = match strip m x with
      | EmptyString => strip m (String q y)
      | String a r => String a r ++ String q y
      end.
Proof.
  intros Hq. induction n as [|n IH]; intros x Hlen.
  { destruct x; [reflexivity | cbn in Hlen; lia]. }
  destruct x as [|a x1]; [reflexivity|]. cbn [String.length] in Hlen.
  rewrite append_cons. destruct (ws1 a) eqn:Ea.
  { rewrite !strip_ws1 by exact Ea. apply IH. lia. }
  destruct x1 as [|b x2].
  { rewrite (strip_one m a Ea), append_cons, !append_nil.
    destruct (ws2_at m q a Hq) as [H2 _].
    destruct y as [|c y'].
    - now rewrite strip_two.
    - destruct (ws3_at m q c a Hq) as (_ & H3 & _).
      now rewrite strip_stop by assumption. }
  cbn [String.length] in Hlen. rewrite append_cons.
  destruct (if m then ws2 b a else ws2 a b) eqn:E2.
  { rewrite !(strip_ws2 m a b) by assumption. apply IH. lia. }
  destruct x2 as [|c x3].
  { rewrite (strip_two m a b Ea E2), !append_cons, !append_nil.
    destruct (ws3_at m q b a Hq) as (H3 & _ & H3').
    now rewrite strip_stop by assumption. }
  cbn [String.length] in Hlen. rewrite append_cons.
  destruct (if m then ws3 c b a else ws3 a b c) eqn:E3.
  { rewrite !(strip_ws3 m a b c) by assumption. apply IH. lia. }
  now rewrite !(strip_stop m a b c) by assumption.
Qed.

Lemma strip_ascii7_stays (m : bool) (q : ascii) (y : string) :
  ascii7 q = true -> ws1 q = false -> strip m (String q y) = String q y.
Proof.
  intros Hq Hw. destruct y as [|b [|c y]].
  - now apply strip_one.
  - apply strip_two; [exact Hw|]. now destruct (ws2_at m q b Hq).
  - apply strip_stop; [exact Hw| |].
    + now destruct (ws2_at m q b Hq).
    + now destruct (ws3_at m q c b Hq) as (_ & _ & H).
Qed.

Lemma trim_halves (s : string) : trim s = trimEnd (trimStart s).
Proof. reflexivity. Qed.

Lemma trimEnd_empty : trimEnd EmptyString = EmptyString.
Proof. reflexivity. Qed.

Lemma rev_string_empty (s : string) :
  rev_string s = EmptyString -> s = EmptyString.
Proof.
  intros H. rewrite <- (rev_string_involutive s). now rewrite H.
Qed.

(** A space after the text changes nothing to what [trim] returns. *)
Lemma trim_space_after (f : string) : trim (f ++ " ") = trim f.
Proof.
  unfold trim.
  rewrite (strip_app_ascii7 false " " EmptyString eq_refl
             (String.length f) f (le_n _)).
  destruct (strip false f) as [|a r]; [reflexivity|].
  rewrite rev_string_app.
  change (rev_string " ") with " ".
  now rewrite append_cons, append_nil, (strip_ws1 true " ") by reflexivity.
Qed.

Lemma trim_space_before (l : string) : trim (" " ++ l) = trim l.
Proof. reflexivity. Qed.

(** X10. With one of the two names missing or blank, the full name is the
    other name trimmed: the separating space leaves no trace. (The
    placeholder stands in when that is empty as well.) *)
Theorem name_one_sided (body : gmap string string) :
  let f := default EmptyString (body !! "firstName") in
  let l := default EmptyString (body !! "lastName") in
  (l = EmptyString ->
   name (parseFormData body) = JStr (or_else (trim f) "Unnamed Request"))
  /\ (f = EmptyString ->
      name (parseFormData body) = JStr (or_else (trim l) "Unnamed Request")).
Proof.
  cbv zeta. rewrite name_joined. unfold joinedNames, or_else.
  split; intros ->.
  - change (" " ++ EmptyString) with " ". now rewrite trim_space_after.
  - rewrite append_nil. now rewrite trim_space_before.
Qed.

Lemma name_one_sided_witness :
  name (parseFormData {[ "firstName" := "  Ada " ]}) = JStr "Ada"
  /\ name (parseFormData {[ "lastName" := "Lovelace" ]}) = JStr "Lovelace".
Proof.
  split.
  - destruct (name_one_sided {[ "firstName" := "  Ada " ]}) as [H _].
    rewrite H by reflexivity. reflexivity.
  - destruct (name_one_sided {[ "lastName" := "Lovelace" ]}) as [_ H].
    rewrite H by reflexivity. reflexivity.
Defined.

(** *** The notes *)

Lemma trimEnd_after_colon (pre d : string) :
  trimEnd (pre ++ String ":" (nl ++ d ++ nl ++ "            "))
  = pre ++ String ":"
      (if String.eqb (trimEnd d) EmptyString then EmptyString
       else nl ++ trimEnd d).
Proof.
  unfold trimEnd.
  rewrite rev_string_app, rev_string_cons, !rev_string_app.
  change (rev_string "            ") with "            ".
  change (rev_string nl) with nl.
  rewrite !append_assoc. unfold nl at 1 2 3.
  rewrite !append_cons, !append_nil.
  rewrite !(strip_ws1 true) by reflexivity.
  rewrite (strip_app_ascii7 true (ascii_of_nat 10)
             (String ":" (rev_string pre)) eq_refl
             (String.length (rev_string d)) (rev_string d) (le_n _)).
  destruct (strip true (rev_string d)) as [|a r] eqn:E.
  - rewrite (strip_ws1 true) by reflexivity.
    rewrite strip_ascii7_stays by reflexivity.
    rewrite rev_string_cons, rev_string_involutive.
    change (rev_string EmptyString) with EmptyString.
    now rewrite String.eqb_refl.
  - destruct (String.eqb_spec (rev_string (String a r)) EmptyString)
      as [H|_]; [now apply rev_string_empty in H|].
    rewrite rev_string_app, !rev_string_cons, rev_string_involutive.
    rewrite !append_assoc. unfold nl.
    now rewrite !append_cons, !append_nil.
Qed.

(** X11. The notes always read: the line of the email, of the type and of
    the priority, an empty line, the heading [Description:], and then the
    description on a line of its own with its trailing white space removed
    (no such line when the description is white space only). Nothing else
    of the four fields is changed. *)
Theorem notes_layout (fd : FormData) :
  notes fd
  = "Request from: " ++ to_string (email fd) ++ nl
    ++ "Type: " ++ to_string (requestType fd) ++ nl
    ++ "Priority: " ++ to_string (priority fd) ++ nl
    ++ nl
    ++ "Description:"
    ++ (if String.eqb (trimEnd (to_string (description fd))) EmptyString
        then EmptyString
        else nl ++ trimEnd (to_string (description fd))).
Proof.
  unfold notes. rewrite trim_halves.
  change (trimStart (nl ++ "Request from: " ++ ?x))
    with ("Request from: " ++ x).
  set (d := to_string (description fd)).
  pose proof (trimEnd_after_colon
                ("Request from: " ++ to_string (email fd) ++ nl
                 ++ "Type: " ++ to_string (requestType fd) ++ nl
                 ++ "Priority: " ++ to_string (priority fd) ++ nl
                 ++ nl ++ "Description") d) as H.
  rewrite !append_assoc in H. exact H.
Qed.

(** *** What reaches the composer *)

Lemma same_fields_lookup (body body' : gmap string string) (k : string) :
  same_fields body body' = true -> k ∈ postedKeys ->
  get body k = get body' k.
Proof.
  intros H Hk. unfold same_fields in H.
  apply list_elem_of_In in Hk.
  pose proof (proj1 (forallb_forall _ _) H k Hk) as E.
  apply bool_decide_eq_true in E. unfold get. now rewrite E.
Qed.

(** X12. [parseFormData] reads the six keys and nothing else: two records
    that hold the same under these keys are normalised alike, whatever else
    they carry. *)
Theorem parseFormData_six_keys (body body' : gmap string string) :
  same_fields body body' = true ->
  parseFormData body = parseFormData body'.
Proof.
  intros H. unfold parseFormData.
  rewrite !(same_fields_lookup body body' _ H) by (unfold postedKeys; set_solver).
  reflexivity.
Qed.

Lemma parseFormData_six_keys_witness :
  parseFormData (<["Timestamp" := "9/30/2025"]> sarah) = parseFormData sarah.
Proof.
  apply (parseFormData_six_keys (<["Timestamp" := "9/30/2025"]> sarah) sarah).
  vm_compute. reflexivity.
Defined.

(** *** Placement of the six request types *)

(** X13. A request type of the table is placed as the table says. Where
    gids are stored, the command names the stored gid, whatever the tracker
    does. Where names are stored, it names the gid of the first reported
    section with the stored name, and has no placement when there is none
    or the listing failed. *)
Theorem mapped_placement
  (pid : jsval) (body : gmap string string) (w : World) (v : string) :
  let rt := to_string (requestType (parseFormData body)) in
  (ById.SECTION_MAP !! rt = Some v ->
   data_prop "memberships" (fst (ById.webhook pid body w))
   = Some (DArr [ DObj [ ("project", DVal pid);
                         ("section", DVal (JStr v)) ] ]))
  /\ (ByName.SECTION_MAP !! rt = Some v ->
      fst (ByName.sectionId (parseFormData body) w)
      = match List.find (fun s => String.eqb (sec_name s) v) (reported w)
        with
        | Some s => JStr (gid s)
        | None => JNull
        end).
Proof.
  cbv zeta. split; intros H.
  - pose proof (proj2 (truthy_str _) (section_gids_filled _ _ H)) as Hv.
    assert (ById.sectionId (parseFormData body) = JStr v) as E.
    { unfold ById.sectionId. rewrite (get_own _ _ _ H). unfold js_or.
      now rewrite Hv. }
    rewrite ById_webhook. cbn [fst].
    now rewrite data_prop_memberships, E, Hv.
  - unfold ByName.sectionId. rewrite (get_own _ _ _ H).
    rewrite (proj2 (truthy_str _) (section_names_filled _ _ H)).
    now rewrite getSectionIdByName_find.
Qed.

Lemma mapped_placement_witness :
  data_prop "memberships"
    (fst (ById.webhook (JStr "1200")
            {[ "requestType" := "Integration Issue" ]} [Unreachable]))
  = Some (DArr [ DObj [ ("project", DVal (JStr "1200"));
                        ("section", DVal (JStr "1211512835831283")) ] ])
  /\ fst (ByName.sectionId
            (parseFormData {[ "requestType" := "Integration Issue" ]})
            [Unreachable])
     = JNull.
Proof.
  split.
  - apply (mapped_placement (JStr "1200")
             {[ "requestType" := "Integration Issue" ]} [Unreachable]
             "1211512835831283").
    reflexivity.
  - destruct (mapped_placement (JStr "1200")
                {[ "requestType" := "Integration Issue" ]} [Unreachable]
                "🛠️ Integration Issue") as [_ H].
    rewrite H by reflexivity. reflexivity.
Defined.

(** *** Replaying the sheet *)

Section ReplayFacts.

Context {cell : Type}.
Variable cutoff : Z.
Variable sheet : nat -> SheetRow cell.

Lemma rows_from_rows (n i : nat) (net : list bool) :
  event_row <$> rows_from cutoff sheet i n net = seq i n.
Proof.
  revert i net. induction n as [|n IH]; intros i net; [reflexivity|].
  cbn [rows_from seq].
  destruct (Z.leb cutoff (timestamp (sheet i))).
  - cbn. now rewrite IH.
  - destruct net as [|b net]; cbn; now rewrite IH.
Qed.

(** X14. The replay visits every data row once and in order, from row 2 to
    the last row, and never the header; a fetch that throws does not stop
    it. With a sheet that has no data row nothing happens. *)
Theorem processExistingRows_rows (lastRow : nat) (net : list bool) :
  event_row <$> processExistingRows cutoff sheet lastRow net
  = seq 2 (lastRow - 1).
Proof. apply rows_from_rows. Qed.

Lemma rows_from_payloads (n i : nat) (net : list bool) :
  omap event_payload (rows_from cutoff sheet i n net)
  = (fun j => rowData (sheet j))
    <$> List.filter (fun j => Z.ltb (timestamp (sheet j)) cutoff) (seq i n).
Proof.
  revert i net. induction n as [|n IH]; intros i net; [reflexivity|].
  cbn [rows_from seq List.filter]. rewrite Z.ltb_antisym.
  destruct (Z.leb cutoff (timestamp (sheet i))); cbn [negb].
  - cbn. apply IH.
  - destruct net as [|b net]; cbn; now rewrite IH.
Qed.

(** X15. The replay posts exactly the rows stamped before the cutoff, each
    once and in sheet order, with the cells of columns B to G as the six
    fields; a row stamped at the cutoff or later is never posted, and
    whether earlier fetches returned or threw makes no difference. *)
Theorem processExistingRows_payloads (lastRow : nat) (net : list bool) :
  omap event_payload (processExistingRows cutoff sheet lastRow net)
  = (fun j => rowData (sheet j))
    <$> List.filter (fun j => Z.ltb (timestamp (sheet j)) cutoff)
          (seq 2 (lastRow - 1)).
Proof. apply rows_from_payloads. Qed.

End ReplayFacts.

Lemma or_default_cell (obj : gmap string string) (key s d : string) :
  object_prototype key = JUndefined -> obj !! key = Some s ->
  js_or (get obj key) (JStr d) = JStr (or_else s d).
Proof.
  intros Hp Hk. rewrite or_default_cases by exact Hp. rewrite Hk.
  unfold or_else. now destruct (String.eqb s EmptyString).
Qed.

(** X16. End to end from a replayed row whose cells of columns B to G all
    hold text: the normalised record holds these cells, each blank cell
    replaced by the default of its field, and the two name cells joined and
    trimmed. (A cell of another type, a number or a boolean, is posted as
    such and is outside this statement.) *)
Theorem replay_then_parse (r : SheetRow string) :
  parseFormData (rowData r)
  = {| name := JStr (or_else (trim (colB r ++ " " ++ colC r))
                             "Unnamed Request");
       email := JStr (or_else (colD r) "no-email@provided.com");
       requestType := JStr (or_else (colE r) "General");
       description := JStr (or_else (colF r) "No description provided");
       priority := JStr (or_else (colG r) "Medium") |}.
Proof.
  unfold parseFormData.
  rewrite (or_default_cell _ "email" (colD r)) by reflexivity.
  rewrite (or_default_cell _ "requestType" (colE r)) by reflexivity.
  rewrite (or_default_cell _ "description" (colF r)) by reflexivity.
  rewrite (or_default_cell _ "priority" (colG r)) by reflexivity.
  rewrite !or_blank_default by reflexivity.
  change (rowData r !! "firstName") with (Some (colB r)).
  change (rowData r !! "lastName") with (Some (colC r)).
  cbn [default to_string]. f_equal. unfold js_or, truthy, or_else.
  now destruct (String.eqb _ EmptyString).
Qed.
